(** * City facts resolver of [mcp_agent/agent.py]

    A shallow embedding of the two tool functions [get_weather] and
    [get_current_time], of the module-level table [CITY_DATA] and of the
    credential check made when the module is imported.

    - A Python [str] is a sequence of Unicode code points: [list N].
    - A Python [dict] with [str] keys is a [gmap str _].
    - The functions run in a state-and-exception monad over a [World] that
      holds the module global [CITY_DATA], standard output (the text written
      so far and what its encoding can encode), the cache of the [ZoneInfo]
      constructor, the timezone database and the system clock. *)

From Stdlib Require Import NArith String Ascii DecimalString.
From stdpp Require Import gmap list fin_maps.

Local Open Scope N_scope.

(** ** Python strings *)

Abbreviation str := (list N).

(** Code points of an ASCII literal. *)
Fixpoint lit (s : string) : str :=
  match s with
  | EmptyString => []
  | String a r => N_of_ascii a :: lit r
  end.

Definition SPACE : N := 32.
Definition DQUOTE : N := 34.
Definition DEGREE : N := 176.
Definition NEWLINE : N := 10.

(** [s in t] for strings: [s] occurs in [t] as a contiguous run. *)
Definition contains (t s : str) : Prop := ∃ l r : str, t = l ++ s ++ r.

(** ** [str.lower] and [str.replace(" ", "")] *)

Definition is_ascii (c : N) : bool := c <? 128.

Definition ascii_lower (c : N) : N :=
  if (65 <=? c) && (c <=? 90) then c + 32 else c.

(** ** Dictionaries *)

(** A dict display [{k1: v1, ..., kn: vn}]: the pairs are stored from left
    to right, a later pair overwriting an earlier one with the same key. *)
Definition dict_display {V} (kvs : list (str * V)) : gmap str V :=
  foldl (λ m kv, <[kv.1 := kv.2]> m) ∅ kvs.

(** ** The table *)

Definition newyork_key : str := lit "newyork".
Definition london_key : str := lit "london".
Definition tokyo_key : str := lit "tokyo".

Definition newyork_fields : list (str * str) :=
  [ (lit "display_name", lit "New York");
    (lit "weather_report",
     lit "The weather in New York is sunny with a temperature of 45"
       ++ [DEGREE] ++ lit "F.");
    (lit "timezone", lit "America/New_York") ].

Definition london_fields : list (str * str) :=
  [ (lit "display_name", lit "London");
    (lit "weather_report",
     lit "It's cloudy in London with a temperature of 55"
       ++ [DEGREE] ++ lit "F.");
    (lit "timezone", lit "Europe/London") ].

Definition tokyo_fields : list (str * str) :=
  [ (lit "display_name", lit "Tokyo");
    (lit "weather_report",
     lit "Tokyo is experiencing light rain and a temperature of 72"
       ++ [DEGREE] ++ lit "F.");
    (lit "timezone", lit "Asia/Tokyo") ].

Definition CITY_DATA_display : list (str * list (str * str)) :=
  [ (newyork_key, newyork_fields);
    (london_key, london_fields);
    (tokyo_key, tokyo_fields) ].

Definition CITY_DATA : gmap str (gmap str str) :=
  dict_display (map (λ kv, (kv.1, dict_display kv.2)) CITY_DATA_display).

(** ** Exceptions, the world and the monad of tool calls *)

(** The keys with which the module subscripts a record. *)
Inductive field := display_name | weather_report | timezone.

Definition field_name (f : field) : str :=
  match f with
  | display_name => lit "display_name"
  | weather_report => lit "weather_report"
  | timezone => lit "timezone"
  end.

(** The exceptions that can arise in the two functions, all of them
    instances of [Exception]: a subscript with one of the three field names
    raises [KeyError]; [print] raises [UnicodeEncodeError], with the
    arguments Python gives it, when the encoding of standard output lacks a
    character; what [ZoneInfo(...)] and [datetime.datetime.now(...)] raise
    ([ZoneInfoNotFoundError], [ValueError], [OSError], [OverflowError], ...)
    is kept by its text. *)
Inductive exn :=
  | KeyError (key : field)
  | UnicodeEncodeError (encoding object : str) (start end_ : nat)
      (reason : str)
  | LibraryError (text : str).

(** Decimal digits of an index; hexadecimal digits of a code point, in the
    given width. *)
Definition decimal (n : nat) : str :=
  lit (NilZero.string_of_uint (Nat.to_uint n)).

Definition hex_digit (d : N) : N := if d <? 10 then 48 + d else 87 + d.

Fixpoint hex_fixed (width : nat) (c : N) : str :=
  match width with
  | O => []
  | S k => hex_digit ((c / 16 ^ N.of_nat k) mod 16) :: hex_fixed k c
  end.

(** The escape under which a message shows the character. *)
Definition char_escape (c : N) : str :=
  if c <=? 255 then lit "\x" ++ hex_fixed 2 c
  else if c <=? 65535 then lit "\u" ++ hex_fixed 4 c
  else lit "\U" ++ hex_fixed 8 c.

(** [str(e)].  For a [KeyError] it is the [repr] of the key, which for the
    three field names is the name between single quotes. *)
Definition exn_str (e : exn) : str :=
  match e with
  | KeyError k => lit "'" ++ field_name k ++ lit "'"
  | UnicodeEncodeError encoding object start end_ reason =>
      match object !! start with
      | Some c =>
          if bool_decide (end_ = S start)
          then lit "'" ++ encoding ++ lit "' codec can't encode character '"
                 ++ char_escape c ++ lit "' in position " ++ decimal start
                 ++ lit ": " ++ reason
          else lit "'" ++ encoding
                 ++ lit "' codec can't encode characters in position "
                 ++ decimal start ++ lit "-" ++ decimal (pred end_)
                 ++ lit ": " ++ reason
      | None =>
          lit "'" ++ encoding
            ++ lit "' codec can't encode characters in position "
            ++ decimal start ++ lit "-" ++ decimal (pred end_)
            ++ lit ": " ++ reason
      end
  | LibraryError t => t
  end.

Inductive result (A : Type) :=
  | Ok (a : A)
  | Raise (e : exn).
Arguments Ok {A} a.
Arguments Raise {A} e.

(** What a call into the timezone library or the clock comes to: a value,
    or an exception with the text [str(e)]. *)
Inductive outcome (A : Type) :=
  | Returns (a : A)
  | Fails (text : str).
Arguments Returns {A} a.
Arguments Fails {A} text.

(** A [ZoneInfo] object, identified by its key. *)
Record ZoneInfo := { zone_key : str }.

(** The fields of an aware [datetime] that ['%H:%M'] reads
    ([0 <= hour < 24], [0 <= minute < 60]). *)
Record datetime := { hour : N; minute : N }.

(** The encoding of standard output with its error handler: its name,
    which characters outside ASCII it can encode (every ASCII character can
    be encoded), and the reason it gives for the others. *)
Record Codec := {
  encoding_name : str;
  encodes : N → bool;
  encoding_reason : str
}.

Record World := {
  city_table : gmap str (gmap str str);  (* the module global CITY_DATA *)
  stdout : str;                          (* the text written so far *)
  stdout_codec : Codec;                  (* the encoding of sys.stdout *)
  zone_cache : list (str * ZoneInfo);    (* the cache of ZoneInfo, most
                                            recently used first *)
  tzdb : str → outcome ZoneInfo;         (* loading a zone from the database *)
  clock : ZoneInfo → outcome datetime    (* datetime.datetime.now(tz) *)
}.

Definition set_stdout (w : World) (out : str) : World :=
  {| city_table := city_table w; stdout := out;
     stdout_codec := stdout_codec w; zone_cache := zone_cache w;
     tzdb := tzdb w; clock := clock w |}.

Definition set_zone_cache (w : World) (cache : list (str * ZoneInfo)) : World :=
  {| city_table := city_table w; stdout := stdout w;
     stdout_codec := stdout_codec w; zone_cache := cache;
     tzdb := tzdb w; clock := clock w |}.

Definition Py (A : Type) : Type := World → result A * World.

Definition raise {A} (e : exn) : Py A := λ w, (Raise e, w).

#[export] Instance Py_ret : MRet Py := λ A a w, (Ok a, w).

#[export] Instance Py_bind : MBind Py := λ A B k m w,
  match m w with
  | (Ok a, w') => k a w'
  | (Raise e, w') => (Raise e, w')
  end.

(** [try: body / except Exception as e: handler e] *)
Definition try_except {A} (body : Py A) (handler : exn → Py A) : Py A :=
  λ w, match body w with
       | (Ok a, w') => (Ok a, w')
       | (Raise e, w') => handler e w'
       end.

(** Standard output can encode the character, the whole string. *)
Definition can_encode (w : World) (c : N) : bool :=
  is_ascii c || encodes (stdout_codec w) c.

Definition printable (w : World) (s : str) : bool := forallb (can_encode w) s.

(** Where encoding stops: the first character that cannot be encoded, and
    the end of the run of such characters that starts there. *)
Fixpoint unencodable_prefix (w : World) (s : str) : nat :=
  match s with
  | [] => O
  | c :: r => if can_encode w c then O else S (unencodable_prefix w r)
  end.

Fixpoint unencodable_run (w : World) (s : str) (i : nat)
    : option (nat * nat) :=
  match s with
  | [] => None
  | c :: r =>
      if can_encode w c then unencodable_run w r (S i)
      else Some (i, (S i + unencodable_prefix w r)%nat)
  end.

(** [print(s)]: the string is encoded as a whole before anything is
    written; then the string and a newline are written. *)
Definition print (s : str) : Py unit :=
  λ w, match unencodable_run w s 0 with
       | None => (Ok tt, set_stdout w (stdout w ++ s ++ [NEWLINE]))
       | Some (start, end_) =>
           (Raise (UnicodeEncodeError (encoding_name (stdout_codec w)) s
                     start end_ (encoding_reason (stdout_codec w))), w)
       end.

(** [CITY_DATA.get(key)]: the record, or [None]. *)
Definition CITY_DATA_get (key : str) : Py (option (gmap str str)) :=
  λ w, (Ok (city_table w !! key), w).

(** Truth value of what [dict.get] returned: [None] and the empty dict are
    false. *)
Definition truthy (o : option (gmap str str)) : bool :=
  match o with
  | None => false
  | Some d => negb (bool_decide (d = ∅))
  end.

(** [d["<field>"]] *)
Definition getitem (d : gmap str str) (key : field) : Py str :=
  match d !! field_name key with
  | Some v => mret v
  | None => raise (KeyError key)
  end.

(** The cache of the [ZoneInfo] constructor: the objects it keeps alive,
    at most eight, the most recently used first. *)
Definition zone_cache_size : nat := 8.

Fixpoint cache_find (key : str) (cache : list (str * ZoneInfo))
    : option ZoneInfo :=
  match cache with
  | [] => None
  | (k, tz) :: rest =>
      if bool_decide (k = key) then Some tz else cache_find key rest
  end.

Fixpoint cache_remove (key : str) (cache : list (str * ZoneInfo))
    : list (str * ZoneInfo) :=
  match cache with
  | [] => []
  | (k, tz) :: rest =>
      if bool_decide (k = key) then cache_remove key rest
      else (k, tz) :: cache_remove key rest
  end.

(** [ZoneInfo(key)]: a cached object is returned and becomes the most
    recently used; otherwise the zone is loaded from the database and, when
    that succeeds, cached, the least recently used object giving way when
    there are more than eight. *)
Definition ZoneInfo_new (key : str) : Py ZoneInfo :=
  λ w, match cache_find key (zone_cache w) with
       | Some tz =>
           (Ok tz,
            set_zone_cache w ((key, tz) :: cache_remove key (zone_cache w)))
       | None =>
           match tzdb w key with
           | Returns tz =>
               (Ok tz,
                set_zone_cache w
                  (take zone_cache_size ((key, tz) :: zone_cache w)))
           | Fails text => (Raise (LibraryError text), w)
           end
       end.

(** [datetime.datetime.now(tz)] *)
Definition datetime_now (tz : ZoneInfo) : Py datetime :=
  λ w, match clock w tz with
       | Returns now => (Ok now, w)
       | Fails text => (Raise (LibraryError text), w)
       end.

(** A two-digit decimal field of [strftime], zero padded. *)
Definition two_digits (n : N) : str := [48 + n / 10; 48 + n mod 10].

(** [now.strftime('%H:%M')] *)
Definition strftime_HM (now : datetime) : str :=
  two_digits (hour now) ++ lit ":" ++ two_digits (minute now).

(** The two dicts the tools return. *)
Definition success (report : str) : gmap str str :=
  dict_display [ (lit "status", lit "success"); (lit "report", report) ].

Definition error (error_message : str) : gmap str str :=
  dict_display [ (lit "status", lit "error");
                 (lit "error_message", error_message) ].

(** A stand-in for the Unicode lower-casing outside ASCII, right on the
    characters it names and on characters without case: the Kelvin sign
    becomes [k], capital I with dot above becomes [i] followed by a combining
    dot, the Latin-1 capitals move down by 32.  It gives the concrete inputs
    below a lower-casing to run with. *)
Definition lower_nonascii_sample (before : str) (c : N) (after : str) : str :=
  if c =? 8490 then [107]
  else if c =? 304 then [105; 775]
  else if (192 <=? c) && (c <=? 222) && negb (c =? 215) then [c + 32]
  else [c].

(** ** Module start-up: the credential check *)

(** [os.environ]: the variables of the process, by exact name. *)
Abbreviation environ := (gmap str str).

(** How the import gets past line 41: [sys.exit(message)], or it goes on
    with the global [Maps_API_KEY] bound. *)
Inductive startup (A : Type) :=
  | SystemExit (message : str)
  | Started (a : A).
Arguments SystemExit {A} message.
Arguments Started {A} a.

(** Truth value of what [os.environ.get] returned: [None] and the empty
    string are false. *)
Definition str_truthy (o : option str) : bool :=
  match o with
  | None => false
  | Some s => negb (bool_decide (s = []))
  end.

Definition missing_key_message : str :=
  lit "Error: Environment variable 'Maps_PLATFORM_API_KEY' is not set.".

(** [Maps_API_KEY = os.environ.get("Maps_PLATFORM_API_KEY")] followed by
    [if not Maps_API_KEY: sys.exit(...)]: the import up to and including the
    check.  What the import does afterwards (the calls into the tracing and
    agent frameworks) is not part of it. *)
Definition module_startup (e : environ) : startup str :=
  let Maps_API_KEY := e !! lit "Maps_PLATFORM_API_KEY" in
  match Maps_API_KEY with
  | Some key =>
      if negb (str_truthy Maps_API_KEY) then SystemExit missing_key_message
      else Started key
  | None => SystemExit missing_key_message
  end.

(** The line each tool prints on entry. *)
Definition tool_log_line (tool city : str) : str :=
  lit ". [TOOL] " ++ [DQUOTE] ++ tool ++ [DQUOTE] ++ lit " - City: " ++ city
    ++ lit ".".

(** A time of day as a [datetime] holds it. *)
Definition valid_time (t : datetime) : Prop := hour t < 24 ∧ minute t < 60.

(** An ASCII capital letter, an ASCII small letter. *)
Definition is_ascii_upper (c : N) : Prop := 65 ≤ c ∧ c ≤ 90.


(** A table other than the module's own: a record without timezone and
    weather report, an empty record, a record with a timezone only. *)
Definition sparse_table : gmap str (gmap str str) :=
  dict_display
    [ (lit "paris", dict_display [ (lit "display_name", lit "Paris") ]);
      (lit "oslo", dict_display []);
      (lit "rome", dict_display [ (lit "timezone", lit "Europe/Rome") ]) ].

(** Three encodings of standard output. *)
Definition ascii_codec : Codec :=
  {| encoding_name := lit "ascii";
     encodes := λ _, false;
     encoding_reason := lit "ordinal not in range(128)" |}.

Definition latin_1_codec : Codec :=
  {| encoding_name := lit "latin-1";
     encodes := λ c, c <=? 255;
     encoding_reason := lit "ordinal not in range(256)" |}.

Definition utf_8_codec : Codec :=
  {| encoding_name := lit "utf-8";
     encodes := λ c, (c <? 55296) || ((57343 <? c) && (c <=? 1114111));
     encoding_reason := lit "surrogates not allowed" |}.

(** A timezone database that knows the three zones, one that knows none, a
    clock that reads 09:05 and one that cannot be read.  The text of a
    missing zone is the [repr] of the library's message, which for a key
    without quote characters is the message between single quotes. *)
Definition sample_tzdb (key : str) : outcome ZoneInfo :=
  if bool_decide (key ∈ [lit "America/New_York"; lit "Europe/London";
                         lit "Asia/Tokyo"])
  then Returns {| zone_key := key |}
  else Fails (lit "'No time zone found with key " ++ key ++ lit "'").

Definition empty_tzdb (key : str) : outcome ZoneInfo :=
  Fails (lit "'No time zone found with key " ++ key ++ lit "'").

Definition sample_clock (tz : ZoneInfo) : outcome datetime :=
  Returns {| hour := 9; minute := 5 |}.


Definition sparse_world : World :=
  {| city_table := sparse_table; stdout := []; stdout_codec := utf_8_codec;
     zone_cache := [];
     tzdb := λ key, Returns {| zone_key := key |};
     clock := λ _, Returns {| hour := 23; minute := 59 |} |}.

(** Tokyo spelled with the Kelvin sign for its [k]; a lone surrogate. *)
Definition kelvin_tokyo : str := lit "To" ++ [8490] ++ lit "yo".

Definition lone_surrogate : str := [55296].

Section Resolver.

(** The lower-casing of a code point outside ASCII comes from the Unicode
    character database of the interpreter; it may yield several code points
    and, for capital sigma, depends on the text on both sides.  It is taken
    as given: [lower_nonascii before c after]. *)
Variable lower_nonascii : str → N → str → str.

Definition lower_cp (before : str) (c : N) (after : str) : str :=
  if is_ascii c then [ascii_lower c] else lower_nonascii before c after.

Fixpoint lower_from (before s : str) : str :=
  match s with
  | [] => []
  | c :: after => lower_cp before c after ++ lower_from (before ++ [c]) after
  end.

(** [s.lower()] *)
Definition lower (s : str) : str := lower_from [] s.

(** [s.replace(" ", "")]: every occurrence of U+0020 is dropped. *)
Fixpoint remove_spaces (s : str) : str :=
  match s with
  | [] => []
  | c :: r => if c =? SPACE then remove_spaces r else c :: remove_spaces r
  end.

(** [city.lower().replace(" ", "")] *)
Definition normalize (city : str) : str := remove_spaces (lower city).

(** ** The tool functions *)

Definition weather_miss_message (city : str) : str :=
  lit "Sorry, I don't have weather information for '" ++ city ++ lit "'.".

Definition timezone_miss_message (city : str) : str :=
  lit "Sorry, I don't have timezone information for '" ++ city ++ lit "'.".

Definition time_failure_message (city : str) (e : exn) : str :=
  lit "Could not retrieve time for '" ++ city ++ lit "'. Reason: "
    ++ exn_str e.

Definition time_report (display : str) (now : datetime) : str :=
  lit "The current time in " ++ display ++ lit " is "
    ++ strftime_HM now ++ lit ".".

Definition get_weather (city : str) : Py (gmap str str) :=
  print (tool_log_line (lit "get_weather") city) ;;
  let city_normalized := normalize city in
  o ← CITY_DATA_get city_normalized;
  match o with
  | Some city_data =>
      if truthy o then
        report ← getitem city_data weather_report;
        mret (success report)
      else mret (error (weather_miss_message city))
  | None => mret (error (weather_miss_message city))
  end.

Definition get_current_time (city : str) : Py (gmap str str) :=
  print (tool_log_line (lit "get_current_time") city) ;;
  let city_normalized := normalize city in
  o ← CITY_DATA_get city_normalized;
  match o with
  | Some city_data =>
      if negb (truthy o) then mret (error (timezone_miss_message city))
      else
        try_except
          (name ← getitem city_data timezone;
           tz ← ZoneInfo_new name;
           now ← datetime_now tz;
           display ← getitem city_data display_name;
           mret (success (time_report display now)))
          (λ e, mret (error (time_failure_message city e)))
  | None => mret (error (timezone_miss_message city))
  end.

(** ** Sequences of tool calls *)

Inductive call :=
  | Call_get_weather (city : str)
  | Call_get_current_time (city : str).

Definition do_call (c : call) : Py (gmap str str) :=
  match c with
  | Call_get_weather city => get_weather city
  | Call_get_current_time city => get_current_time city
  end.

(** Between two calls the timezone database and the clock may have changed
    in any way; the module global, standard output and the cache of
    [ZoneInfo] stay as the calls left them. *)
Definition with_outside (w : World) (tz : str → outcome ZoneInfo)
    (ck : ZoneInfo → outcome datetime) : World :=
  {| city_table := city_table w; stdout := stdout w;
     stdout_codec := stdout_codec w; zone_cache := zone_cache w;
     tzdb := tz; clock := ck |}.

Fixpoint run
    (cs : list (call * (str → outcome ZoneInfo) * (ZoneInfo → outcome datetime)))
    (w : World) : World :=
  match cs with
  | [] => w
  | (c, tz, ck) :: cs' => run cs' (do_call c (with_outside w tz ck)).2
  end.

(** The world after the module has been imported: the table is the display,
    nothing has been written; the encoding of standard output, the zones
    already cached, the timezone database and the clock are the process's. *)
Definition initial_world (codec : Codec) (cache : list (str * ZoneInfo))
    (tz : str → outcome ZoneInfo) (ck : ZoneInfo → outcome datetime) : World :=
  {| city_table := CITY_DATA; stdout := []; stdout_codec := codec;
     zone_cache := cache; tzdb := tz; clock := ck |}.

(** ** Vocabulary of the properties *)


(** The two shapes of a returned dict, read off the dict itself. *)
Definition is_success_result (d : gmap str str) : Prop :=
  d !! lit "status" = Some (lit "success")
  ∧ is_Some (d !! lit "report")
  ∧ dom d = {[ lit "status"; lit "report" ]}.

Definition is_error_result (d : gmap str str) : Prop :=
  d !! lit "status" = Some (lit "error")
  ∧ is_Some (d !! lit "error_message")
  ∧ dom d = {[ lit "status"; lit "error_message" ]}.

(** The call returned a dict with status ["success"] whose [report] is the
    given string; with status ["error"] whose [error_message] is the given
    string. *)
Definition returns_success (r : result (gmap str str)) (report : str) : Prop :=
  ∃ d, r = Ok d
       ∧ d !! lit "status" = Some (lit "success")
       ∧ d !! lit "report" = Some report
       ∧ dom d = {[ lit "status"; lit "report" ]}.

Definition returns_error (r : result (gmap str str)) (message : str) : Prop :=
  ∃ d, r = Ok d
       ∧ d !! lit "status" = Some (lit "error")
       ∧ d !! lit "error_message" = Some message
       ∧ dom d = {[ lit "status"; lit "error_message" ]}.

(** What [ZoneInfo(name)] comes to in a world: the cached object, or what
    the database gives. *)
Definition resolve_zone (w : World) (name : str) : outcome ZoneInfo :=
  match cache_find name (zone_cache w) with
  | Some tz => Returns tz
  | None => tzdb w name
  end.

(** A computation leaves the module global as it found it. *)
Definition keeps_table {A} (m : Py A) : Prop :=
  ∀ w, city_table (m w).2 = city_table w.

(** A computation leaves a component of the world as it found it. *)
Definition keeps {A B} (component : World → B) (m : Py A) : Prop :=
  ∀ w, component (m w).2 = component w.



(** ** Facts about the table *)

Lemma CITY_DATA_newyork :
  CITY_DATA !! newyork_key = Some (dict_display newyork_fields).
Proof. vm_compute. reflexivity. Qed.

Lemma CITY_DATA_london :
  CITY_DATA !! london_key = Some (dict_display london_fields).
Proof. vm_compute. reflexivity. Qed.

Lemma CITY_DATA_tokyo :
  CITY_DATA !! tokyo_key = Some (dict_display tokyo_fields).
Proof. vm_compute. reflexivity. Qed.

Lemma CITY_DATA_unfold :
  CITY_DATA =
  <[tokyo_key := dict_display tokyo_fields]>
    (<[london_key := dict_display london_fields]>
       (<[newyork_key := dict_display newyork_fields]> ∅)).
Proof. reflexivity. Qed.

(** Every record of the table is one of the three displays. *)
Lemma CITY_DATA_lookup_Some (k : str) (d : gmap str str) :
  CITY_DATA !! k = Some d →
  (k = newyork_key ∧ d = dict_display newyork_fields)
  ∨ (k = london_key ∧ d = dict_display london_fields)
  ∨ (k = tokyo_key ∧ d = dict_display tokyo_fields).
Proof.
  rewrite CITY_DATA_unfold.
  rewrite !lookup_insert_Some, lookup_empty.
  intros [[<- <-] | [_ [[<- <-] | [_ [[<- <-] | [_ ?]]]]]]; auto.
  discriminate.
Qed.



(** ** Facts about the returned dicts *)

Lemma Ok_inj {A} (a b : A) : Ok a = Ok b → a = b.
Proof. congruence. Qed.

Lemma success_status (r : str) : success r !! lit "status" = Some (lit "success").
Proof. vm_compute. reflexivity. Qed.

Lemma success_report (r : str) : success r !! lit "report" = Some r.
Proof. vm_compute. reflexivity. Qed.

Lemma error_status (m : str) : error m !! lit "status" = Some (lit "error").
Proof. vm_compute. reflexivity. Qed.

Lemma error_error_message (m : str) : error m !! lit "error_message" = Some m.
Proof. vm_compute. reflexivity. Qed.

Lemma success_dom (r : str) : dom (success r) = {[ lit "status"; lit "report" ]}.
Proof. unfold success, dict_display. simpl. rewrite !dom_insert_L, dom_empty_L. set_solver. Qed.

Lemma error_dom (m : str) :
  dom (error m) = {[ lit "status"; lit "error_message" ]}.
Proof. unfold error, dict_display. simpl. rewrite !dom_insert_L, dom_empty_L. set_solver. Qed.

Lemma success_ne_error (r m : str) : success r ≠ error m.
Proof.
  intros E. apply (f_equal (λ d, d !! lit "status")) in E.
  rewrite success_status, error_status in E. discriminate.
Qed.

Lemma error_inj (m1 m2 : str) : error m1 = error m2 → m1 = m2.
Proof.
  intros E. apply (f_equal (λ d, d !! lit "error_message")) in E.
  rewrite !error_error_message in E. congruence.
Qed.


Lemma success_is_success (r : str) : is_success_result (success r).
Proof.
  split; [apply success_status |].
  split; [rewrite success_report; eauto | apply success_dom].
Qed.

Lemma error_is_error (m : str) : is_error_result (error m).
Proof.
  split; [apply error_status |].
  split; [rewrite error_error_message; eauto | apply error_dom].
Qed.


(** ** Facts about normalization *)

Lemma lower_from_spaces (before s : str) :
  Forall (λ c, c = SPACE) s → lower_from before s = s.
Proof.
  intros Hs. revert before.
  induction Hs as [| c s -> _ IH]; intros before; [reflexivity |].
  cbn [lower_from]. rewrite IH. reflexivity.
Qed.

Lemma remove_spaces_spaces (s : str) :
  Forall (λ c, c = SPACE) s → remove_spaces s = [].
Proof. induction 1 as [| c s -> _ IH]; [reflexivity | exact IH]. Qed.

Lemma normalize_spaces (s : str) :
  Forall (λ c, c = SPACE) s → normalize s = [].
Proof.
  intros Hs. unfold normalize, lower.
  rewrite lower_from_spaces by exact Hs. apply remove_spaces_spaces, Hs.
Qed.

Lemma empty_not_key : CITY_DATA !! ([] : str) = None.
Proof. vm_compute. reflexivity. Qed.

Lemma remove_spaces_app (a b : str) :
  remove_spaces (a ++ b) = remove_spaces a ++ remove_spaces b.
Proof.
  induction a as [| c a IH]; [reflexivity |].
  cbn [app remove_spaces]. destruct (c =? SPACE); rewrite IH; reflexivity.
Qed.

Lemma elem_of_remove_spaces (c : N) (s : str) :
  c ∈ remove_spaces s ↔ c ∈ s ∧ c ≠ SPACE.
Proof.
  induction s as [| x s IH]; cbn [remove_spaces].
  - rewrite elem_of_nil. tauto.
  - destruct (N.eqb_spec x SPACE) as [Hx | Hx];
      rewrite ?elem_of_cons, IH; split.
    + intros [? ?]; auto.
    + intros [[? | ?] ?]; [congruence | auto].
    + intros [? | [? ?]]; [split; [auto | congruence] | auto].
    + intros [[? | ?] ?]; auto.
Qed.

Lemma remove_spaces_id (s : str) : SPACE ∉ s → remove_spaces s = s.
Proof.
  induction s as [| x s IH]; [reflexivity |].
  rewrite not_elem_of_cons. intros [Hx Hs]. cbn [remove_spaces].
  destruct (N.eqb_spec x SPACE); [congruence | rewrite IH by exact Hs].
  reflexivity.
Qed.

Lemma lower_from_ascii (before s : str) :
  Forall (λ c, is_ascii c = true) s →
  lower_from before s = ascii_lower <$> s.
Proof.
  intros Hs. revert before.
  induction Hs as [| c s Hc _ IH]; intros before; [reflexivity |].
  cbn [lower_from fmap list_fmap]. unfold lower_cp. rewrite Hc, IH.
  reflexivity.
Qed.

Lemma normalize_ascii (s : str) :
  Forall (λ c, is_ascii c = true) s →
  normalize s = remove_spaces (ascii_lower <$> s).
Proof.
  intros Hs. unfold normalize, lower. rewrite lower_from_ascii by exact Hs.
  reflexivity.
Qed.

Lemma ascii_lower_ascii (c : N) :
  is_ascii c = true →
  is_ascii (ascii_lower c) = true ∧ ¬ is_ascii_upper (ascii_lower c).
Proof.
  unfold is_ascii, ascii_lower, is_ascii_upper. intros H%N.ltb_lt.
  destruct (N.leb_spec 65 c), (N.leb_spec c 90); cbn [andb];
    (split; [apply N.ltb_lt |]); lia.
Qed.

Lemma ascii_lower_id (c : N) : ¬ is_ascii_upper c → ascii_lower c = c.
Proof.
  unfold ascii_lower, is_ascii_upper. intros H.
  destruct (N.leb_spec 65 c), (N.leb_spec c 90); cbn [andb];
    [exfalso; apply H; lia | reflexivity ..].
Qed.

Lemma fmap_ascii_lower_id (s : str) :
  Forall (λ c, ¬ is_ascii_upper c) s → ascii_lower <$> s = s.
Proof.
  induction 1 as [| c s Hc _ IH]; [reflexivity |].
  cbn [fmap list_fmap]. rewrite ascii_lower_id by exact Hc.
  f_equal. exact IH.
Qed.

Lemma normalize_ascii_canonical (s : str) :
  Forall (λ c, is_ascii c = true) s →
  Forall (λ c, is_ascii c = true ∧ ¬ is_ascii_upper c ∧ c ≠ SPACE)
    (normalize s).
Proof.
  intros Hs. rewrite (normalize_ascii s Hs). apply Forall_forall.
  intros c [Hc Hsp]%elem_of_remove_spaces.
  apply list_elem_of_fmap in Hc as (c0 & -> & Hc0).
  rewrite Forall_forall in Hs.
  destruct (ascii_lower_ascii c0 (Hs c0 Hc0)) as [Ha Hu]. auto.
Qed.

(** ** Facts about the returned dicts, continued *)

Lemma returns_success_intro (report : str) :
  returns_success (Ok (success report)) report.
Proof.
  exists (success report).
  split; [reflexivity |]. split; [apply success_status |].
  split; [apply success_report | apply success_dom].
Qed.

Lemma returns_error_intro (message : str) :
  returns_error (Ok (error message)) message.
Proof.
  exists (error message).
  split; [reflexivity |]. split; [apply error_status |].
  split; [apply error_error_message | apply error_dom].
Qed.

Lemma returns_success_not_error (r : result (gmap str str)) (a b : str) :
  returns_success r a → returns_error r b → False.
Proof.
  intros (d & -> & Hs & _) (d' & [= <-] & He & _). rewrite Hs in He.
  discriminate.
Qed.


(** ** Facts about [print] *)

Lemma printable_app (w : World) (a b : str) :
  printable w (a ++ b) = printable w a && printable w b.
Proof. unfold printable. apply forallb_app. Qed.

Lemma printable_ascii (w : World) (s : str) :
  Forall (λ c, is_ascii c = true) s → printable w s = true.
Proof.
  induction 1 as [| c s Hc _ IH]; [reflexivity |].
  cbn [printable forallb]. unfold can_encode at 1. rewrite Hc. exact IH.
Qed.

Lemma printable_log_line (w : World) (tool city : str) :
  printable w tool = true →
  printable w (tool_log_line tool city) = printable w city.
Proof.
  intros Ht. unfold tool_log_line. rewrite !printable_app, Ht.
  replace (printable w (lit ". [TOOL] ")) with true by reflexivity.
  replace (printable w [DQUOTE]) with true by reflexivity.
  replace (printable w (lit " - City: ")) with true by reflexivity.
  replace (printable w (lit ".")) with true by reflexivity.
  cbn [andb]. apply andb_true_r.
Qed.

Lemma printable_codec (w1 w2 : World) (s : str) :
  stdout_codec w1 = stdout_codec w2 → printable w1 s = printable w2 s.
Proof.
  intros E. unfold printable, can_encode. rewrite E. reflexivity.
Qed.

Lemma unencodable_run_None (w : World) (s : str) (i : nat) :
  printable w s = true → unencodable_run w s i = None.
Proof.
  revert i. induction s as [| c s IH]; intros i; [reflexivity |].
  cbn [printable forallb unencodable_run].
  intros [Hc Hs]%andb_true_iff. rewrite Hc. apply IH, Hs.
Qed.

Lemma unencodable_run_Some (w : World) (s : str) (i : nat) :
  printable w s = false →
  ∃ start end_, unencodable_run w s i = Some (start, end_).
Proof.
  revert i. induction s as [| c s IH]; intros i; [discriminate |].
  cbn [printable forallb unencodable_run].
  destruct (can_encode w c); cbn [andb]; [apply IH | eauto].
Qed.

Lemma print_printable (w : World) (s : str) :
  printable w s = true →
  print s w = (Ok tt, set_stdout w (stdout w ++ s ++ [NEWLINE])).
Proof. intros H. unfold print. rewrite unencodable_run_None by exact H. reflexivity. Qed.

Lemma print_unprintable (w : World) (s : str) :
  printable w s = false →
  ∃ start end_,
    print s w
    = (Raise (UnicodeEncodeError (encoding_name (stdout_codec w)) s start end_
                (encoding_reason (stdout_codec w))), w).
Proof.
  intros H. destruct (unencodable_run_Some w s 0 H) as (a & b & E).
  exists a, b. unfold print. rewrite E. reflexivity.
Qed.

(** ** What the two functions compute *)

Lemma truthy_Some (d : gmap str str) : d ≠ ∅ → truthy (Some d) = true.
Proof.
  intros Hne. cbn [truthy]. rewrite bool_decide_eq_false_2 by exact Hne.
  reflexivity.
Qed.

Lemma truthy_true (o : option (gmap str str)) :
  truthy o = true → ∃ d, o = Some d ∧ d ≠ ∅.
Proof.
  destruct o as [d |]; [| discriminate]. cbn [truthy]. intros Ht.
  exists d. split; [reflexivity |]. intros ->.
  rewrite bool_decide_eq_true_2 in Ht by reflexivity. discriminate.
Qed.


Lemma get_current_time_unprintable (w : World) (city : str) :
  printable w city = false →
  ∃ start end_,
    get_current_time city w
    = (Raise (UnicodeEncodeError (encoding_name (stdout_codec w))
                (tool_log_line (lit "get_current_time") city) start end_
                (encoding_reason (stdout_codec w))), w).
Proof.
  intros H.
  destruct (print_unprintable w (tool_log_line (lit "get_current_time") city))
    as (a & b & E); [rewrite printable_log_line by reflexivity; exact H |].
  exists a, b. unfold get_current_time, mbind, Py_bind. rewrite E.
  reflexivity.
Qed.

(** The table found empty-handed: no record, or an empty one. *)
Lemma get_weather_falsy (w : World) (city : str) :
  printable w city = true →
  truthy (city_table w !! normalize city) = false →
  (get_weather city w).1 = Ok (error (weather_miss_message city)).
Proof.
  intros Hp Ht. unfold get_weather, mbind, Py_bind.
  rewrite print_printable by (rewrite printable_log_line by reflexivity; exact Hp).
  unfold CITY_DATA_get. cbn [city_table set_stdout].
  destruct (city_table w !! normalize city) as [d |]; [| reflexivity].
  rewrite Ht. reflexivity.
Qed.

Lemma get_current_time_falsy (w : World) (city : str) :
  printable w city = true →
  truthy (city_table w !! normalize city) = false →
  (get_current_time city w).1 = Ok (error (timezone_miss_message city)).
Proof.
  intros Hp Ht. unfold get_current_time, mbind, Py_bind.
  rewrite print_printable by (rewrite printable_log_line by reflexivity; exact Hp).
  unfold CITY_DATA_get. cbn [city_table set_stdout].
  destruct (city_table w !! normalize city) as [d |]; [| reflexivity].
  rewrite Ht. reflexivity.
Qed.

Lemma get_weather_miss (w : World) (city : str) :
  printable w city = true →
  city_table w !! normalize city = None →
  (get_weather city w).1 = Ok (error (weather_miss_message city)).
Proof. intros Hp Hd. apply get_weather_falsy; [exact Hp | rewrite Hd; reflexivity]. Qed.

Lemma get_current_time_miss (w : World) (city : str) :
  printable w city = true →
  city_table w !! normalize city = None →
  (get_current_time city w).1 = Ok (error (timezone_miss_message city)).
Proof.
  intros Hp Hd. apply get_current_time_falsy; [exact Hp | rewrite Hd; reflexivity].
Qed.

(** The whole of [get_weather] on a record that is there. *)
Lemma get_weather_found (w : World) (city : str) (d : gmap str str) :
  printable w city = true →
  city_table w !! normalize city = Some d → d ≠ ∅ →
  (get_weather city w).1 =
  match d !! lit "weather_report" with
  | Some r => Ok (success r)
  | None => Raise (KeyError weather_report)
  end.
Proof.
  intros Hp Hd Hne. unfold get_weather, mbind, Py_bind.
  rewrite print_printable by (rewrite printable_log_line by reflexivity; exact Hp).
  unfold CITY_DATA_get. cbn [city_table set_stdout].
  rewrite Hd, (truthy_Some d Hne).
  unfold getitem. cbn [field_name].
  destruct (d !! lit "weather_report"); reflexivity.
Qed.

(** The whole of [get_current_time] on a record that is there. *)
Lemma get_current_time_found (w : World) (city : str) (d : gmap str str) :
  printable w city = true →
  city_table w !! normalize city = Some d → d ≠ ∅ →
  (get_current_time city w).1 =
  match d !! lit "timezone" with
  | None => Ok (error (time_failure_message city (KeyError timezone)))
  | Some name =>
      match resolve_zone w name with
      | Fails text => Ok (error (time_failure_message city (LibraryError text)))
      | Returns tz =>
          match clock w tz with
          | Fails text =>
              Ok (error (time_failure_message city (LibraryError text)))
          | Returns now =>
              match d !! lit "display_name" with
              | None =>
                  Ok (error (time_failure_message city (KeyError display_name)))
              | Some display => Ok (success (time_report display now))
              end
          end
      end
  end.
Proof.
  intros Hp Hd Hne. unfold get_current_time, mbind, Py_bind.
  rewrite print_printable by (rewrite printable_log_line by reflexivity; exact Hp).
  unfold CITY_DATA_get. cbn [city_table set_stdout].
  rewrite Hd, (truthy_Some d Hne). cbn [negb].
  unfold try_except, getitem, ZoneInfo_new, datetime_now, resolve_zone.
  cbn [field_name].
  destruct (d !! lit "timezone") as [name |]; [| reflexivity].
  cbn [mret Py_ret zone_cache tzdb clock set_zone_cache set_stdout].
  destruct (cache_find name (zone_cache w)) as [tz |].
  - cbn [clock set_zone_cache set_stdout].
    destruct (clock w tz) as [now | text]; [| reflexivity].
    destruct (d !! lit "display_name"); reflexivity.
  - destruct (tzdb w name) as [tz | text]; [| reflexivity].
    cbn [clock set_zone_cache set_stdout].
    destruct (clock w tz) as [now | text]; [| reflexivity].
    destruct (d !! lit "display_name"); reflexivity.
Qed.


(** ** What the calls leave untouched *)

Section Keeps.

(** A component that neither writing to standard output nor caching a
    zone changes. *)
Context {B : Type} (component : World → B).
Hypothesis component_set_stdout :
  ∀ w out, component (set_stdout w out) = component w.
Hypothesis component_set_zone_cache :
  ∀ w cache, component (set_zone_cache w cache) = component w.

Lemma keeps_mret {A} (a : A) : keeps component (mret a).
Proof. intros w. reflexivity. Qed.

Lemma keeps_raise {A} (e : exn) : keeps component (@raise A e).
Proof. intros w. reflexivity. Qed.

Lemma keeps_bind {A A'} (m : Py A) (k : A → Py A') :
  keeps component m → (∀ a, keeps component (k a)) →
  keeps component (m ≫= k).
Proof.
  intros Hm Hk w. unfold mbind, Py_bind. specialize (Hm w).
  destruct (m w) as [[a | e] w']; cbn [snd] in *.
  - rewrite Hk. exact Hm.
  - exact Hm.
Qed.

Lemma keeps_try_except {A} (body : Py A) (handler : exn → Py A) :
  keeps component body → (∀ e, keeps component (handler e)) →
  keeps component (try_except body handler).
Proof.
  intros Hb Hh w. unfold try_except. specialize (Hb w).
  destruct (body w) as [[a | e] w']; cbn [snd] in *.
  - exact Hb.
  - rewrite Hh. exact Hb.
Qed.

Lemma keeps_print (s : str) : keeps component (print s).
Proof.
  intros w. unfold print.
  destruct (unencodable_run w s 0) as [[a b] |]; cbn [snd];
    [reflexivity | apply component_set_stdout].
Qed.

Lemma keeps_CITY_DATA_get (k : str) : keeps component (CITY_DATA_get k).
Proof. intros w. reflexivity. Qed.

Lemma keeps_getitem (d : gmap str str) (k : field) :
  keeps component (getitem d k).
Proof.
  unfold getitem. destruct (d !! field_name k);
    [apply keeps_mret | apply keeps_raise].
Qed.

Lemma keeps_ZoneInfo_new (k : str) : keeps component (ZoneInfo_new k).
Proof.
  intros w. unfold ZoneInfo_new.
  destruct (cache_find k (zone_cache w)) as [tz |]; cbn [snd];
    [apply component_set_zone_cache |].
  destruct (tzdb w k); cbn [snd];
    [apply component_set_zone_cache | reflexivity].
Qed.

Lemma keeps_datetime_now (tz : ZoneInfo) : keeps component (datetime_now tz).
Proof. intros w. unfold datetime_now. destruct (clock w tz); reflexivity. Qed.

Lemma keeps_get_weather (city : str) : keeps component (get_weather city).
Proof.
  unfold get_weather.
  apply keeps_bind; [apply keeps_print | intros _].
  apply keeps_bind; [apply keeps_CITY_DATA_get | intros [d |]];
    [| apply keeps_mret].
  destruct (truthy (Some d)); [| apply keeps_mret].
  apply keeps_bind; [apply keeps_getitem | intros r; apply keeps_mret].
Qed.

Lemma keeps_get_current_time (city : str) :
  keeps component (get_current_time city).
Proof.
  unfold get_current_time.
  apply keeps_bind; [apply keeps_print | intros _].
  apply keeps_bind; [apply keeps_CITY_DATA_get | intros [d |]];
    [| apply keeps_mret].
  destruct (negb (truthy (Some d))); [apply keeps_mret |].
  apply keeps_try_except; [| intros e; apply keeps_mret].
  apply keeps_bind; [apply keeps_getitem | intros name].
  apply keeps_bind; [apply keeps_ZoneInfo_new | intros tz].
  apply keeps_bind; [apply keeps_datetime_now | intros now].
  apply keeps_bind; [apply keeps_getitem | intros display; apply keeps_mret].
Qed.

Lemma keeps_do_call (c : call) : keeps component (do_call c).
Proof. destruct c; [apply keeps_get_weather | apply keeps_get_current_time]. Qed.

End Keeps.

Lemma keeps_table_do_call (c : call) : keeps_table (do_call c).
Proof. apply (keeps_do_call city_table); reflexivity. Qed.

Lemma run_city_table cs (w : World) : city_table (run cs w) = city_table w.
Proof.
  revert w. induction cs as [| [[c tz] ck] cs IH]; intros w; [reflexivity |].
  cbn [run]. rewrite IH, keeps_table_do_call. reflexivity.
Qed.

Lemma do_call_stdout_codec (c : call) (w : World) :
  stdout_codec (do_call c w).2 = stdout_codec w.
Proof. apply (keeps_do_call stdout_codec); reflexivity. Qed.

Lemma codec_after_run cs (w : World) :
  stdout_codec (run cs w) = stdout_codec w.
Proof.
  revert w. induction cs as [| [[c tz] ck] cs IH]; intros w; [reflexivity |].
  cbn [run]. rewrite IH, do_call_stdout_codec. reflexivity.
Qed.

(** ** What the calls write *)




(** ** Facts about the rendered time *)

Lemma two_digits_decode (n : N) :
  n < 100 →
  n / 10 < 10 ∧ n mod 10 < 10 ∧ n = 10 * (n / 10) + n mod 10.
Proof.
  intros Hn. split; [apply N.Div0.div_lt_upper_bound; lia |].
  split; [apply N.mod_lt; lia | apply N.div_mod; lia].
Qed.

Lemma two_digits_inj (n m : N) :
  n < 100 → m < 100 → two_digits n = two_digits m → n = m.
Proof.
  intros Hn Hm [= Hq Hr].
  destruct (two_digits_decode n Hn) as (_ & _ & En).
  destruct (two_digits_decode m Hm) as (_ & _ & Em).
  lia.
Qed.

(** ** Normalization on the spelled-out examples *)

Example normalize_New_York : normalize (lit "New York") = newyork_key.
Proof. vm_compute. reflexivity. Qed.

Example normalize_london : normalize (lit "london") = london_key.
Proof. vm_compute. reflexivity. Qed.

Example normalize_Tokyo_padded : normalize (lit " Tokyo ") = tokyo_key.
Proof. vm_compute. reflexivity. Qed.

Example normalize_tab_kept : normalize (9 :: lit "Tokyo") = 9 :: tokyo_key.
Proof. vm_compute. reflexivity. Qed.

Example normalize_hyphen_kept : normalize (lit "New-York") = lit "new-york".
Proof. vm_compute. reflexivity. Qed.

(** ** The properties *)







(** C7. The keys written in the table's display are pairwise distinct, so
    the table has exactly these three keys; and after any sequence of calls
    of the two functions, with any inputs, any encoding of standard output
    and any behaviour of the timezone database and the clock, the table is
    the initial one: each key still maps to the record of its display and no
    key has come or gone. *)
Theorem CITY_DATA_unique_and_unchanged :
  NoDup CITY_DATA_display.*1
  ∧ dom CITY_DATA = list_to_set CITY_DATA_display.*1
  ∧ ∀ cs codec cache tz ck,
      city_table (run cs (initial_world codec cache tz ck)) = CITY_DATA
      ∧ (∀ k fields, (k, fields) ∈ CITY_DATA_display →
           city_table (run cs (initial_world codec cache tz ck)) !! k
           = Some (dict_display fields))
      ∧ dom (city_table (run cs (initial_world codec cache tz ck)))
        = list_to_set CITY_DATA_display.*1.
Proof.
  assert (Hdom : dom CITY_DATA = list_to_set CITY_DATA_display.*1).
  { rewrite CITY_DATA_unfold, !dom_insert_L, dom_empty_L.
    cbn [CITY_DATA_display fmap list_fmap fst list_to_set]. set_solver. }
  split; [| split; [exact Hdom |]].
  - cbn [CITY_DATA_display fmap list_fmap fst].
    repeat (apply NoDup_cons; split;
            [rewrite ?elem_of_cons, elem_of_nil; intros H;
             repeat (destruct H as [H | H]); [discriminate .. | exact H] |]).
    apply NoDup_nil_2.
  - intros cs codec cache tz ck. rewrite run_city_table.
    cbn [initial_world city_table].
    split; [reflexivity |]. split; [| exact Hdom].
    intros k fields Hin. unfold CITY_DATA_display in Hin.
    rewrite !elem_of_cons, elem_of_nil in Hin.
    destruct Hin as [[= -> ->] | [[= -> ->] | [[= -> ->] | []]]].
    + apply CITY_DATA_newyork.
    + apply CITY_DATA_london.
    + apply CITY_DATA_tokyo.
Qed.



(** C10. A non-empty input made of space characters only normalizes to the
    empty key, which is not in the table: both functions return a dict with
    status ["error"] whose [error_message] is the miss sentence around the
    spaces as given, which it therefore contains. *)
Theorem all_space_city_errors (w : World) (city : str) :
  city_table w = CITY_DATA →
  city ≠ [] →
  Forall (λ c, c = SPACE) city →
  normalize city = []
  ∧ CITY_DATA !! normalize city = None
  ∧ returns_error (get_weather city w).1
      (lit "Sorry, I don't have weather information for '" ++ city
         ++ lit "'.")
  ∧ contains
      (lit "Sorry, I don't have weather information for '" ++ city
         ++ lit "'.")
      city
  ∧ returns_error (get_current_time city w).1
      (lit "Sorry, I don't have timezone information for '" ++ city
         ++ lit "'.")
  ∧ contains
      (lit "Sorry, I don't have timezone information for '" ++ city
         ++ lit "'.")
      city.
Proof.
  intros Hw _ Hs. pose proof (normalize_spaces city Hs) as Hn.
  assert (Hp : printable w city = true).
  { apply printable_ascii. eapply Forall_impl; [exact Hs |].
    intros c ->. reflexivity. }
  assert (Hnone : city_table w !! normalize city = None)
    by (rewrite Hw, Hn; exact empty_not_key).
  split; [exact Hn |].
  split; [rewrite <- Hw; exact Hnone |].
  split; [rewrite (get_weather_miss w city Hp Hnone);
          apply returns_error_intro |].
  split; [unfold contains; eauto |].
  split; [rewrite (get_current_time_miss w city Hp Hnone);
          apply returns_error_intro |].
  unfold contains; eauto.
Qed.

(** ** Further properties: any table, the log, the cache *)

(** X1. Whatever the table holds (records with fields missing, empty
    records) and whatever the timezone database and the clock do, the only
    exception that leaves [get_current_time] is the one of its [print]: when
    standard output can encode the input it returns a dict of one of the two
    shapes, and when it cannot the [UnicodeEncodeError] escapes. *)
Theorem get_current_time_raises_only_in_print (w : World) (city : str) :
  (printable w city = true →
   ∃ d, (get_current_time city w).1 = Ok d
        ∧ (is_success_result d ∨ is_error_result d))
  ∧ (printable w city = false →
     ∃ start end_,
       (get_current_time city w).1
       = Raise (UnicodeEncodeError (encoding_name (stdout_codec w))
                  (tool_log_line (lit "get_current_time") city) start end_
                  (encoding_reason (stdout_codec w)))).
Proof.
  split.
  - intros Hp. destruct (truthy (city_table w !! normalize city)) eqn:Htr.
    + apply truthy_true in Htr as (d & Hd & Hne).
      rewrite (get_current_time_found w city d Hp Hd Hne).
      destruct (d !! lit "timezone") as [name |];
        [destruct (resolve_zone w name) as [tz | text];
         [destruct (clock w tz) as [now | text];
          [destruct (d !! lit "display_name") |] |] |];
        eexists; (split; [reflexivity |]);
        first [left; apply success_is_success | right; apply error_is_error].
    + rewrite (get_current_time_falsy w city Hp Htr).
      eexists; split; [reflexivity | right; apply error_is_error].
  - intros Hp. destruct (get_current_time_unprintable w city Hp) as (a & b & E).
    exists a, b. rewrite E. reflexivity.
Qed.

(** X2. Over any table, [get_weather] raises in exactly two cases: standard
    output cannot encode the input, and the [UnicodeEncodeError] of [print]
    escapes; or it can, the record under the normalized key is a non-empty
    dict without a ["weather_report"] field, and the subscript raises
    [KeyError('weather_report')], there being no handler around it. *)
Theorem get_weather_raises_iff (w : World) (city : str) (e : exn) :
  (get_weather city w).1 = Raise e
  ↔ (∃ start end_,
       unencodable_run w (tool_log_line (lit "get_weather") city) 0
       = Some (start, end_)
       ∧ e = UnicodeEncodeError (encoding_name (stdout_codec w))
               (tool_log_line (lit "get_weather") city) start end_
               (encoding_reason (stdout_codec w)))
    ∨ (printable w city = true
       ∧ ∃ d, city_table w !! normalize city = Some d ∧ d ≠ ∅
              ∧ d !! lit "weather_report" = None
              ∧ e = KeyError weather_report).
Proof.
  destruct (printable w city) eqn:Hp.
  - assert (Hrun : unencodable_run w (tool_log_line (lit "get_weather") city) 0
                   = None).
    { apply unencodable_run_None.
      rewrite printable_log_line by reflexivity. exact Hp. }
    split.
    + intros Hr. right. split; [reflexivity |].
      destruct (truthy (city_table w !! normalize city)) eqn:Htr.
      * apply truthy_true in Htr as (d & Hd & Hne).
        rewrite (get_weather_found w city d Hp Hd Hne) in Hr.
        exists d. destruct (d !! lit "weather_report"); [discriminate |].
        repeat split; try assumption. congruence.
      * rewrite (get_weather_falsy w city Hp Htr) in Hr. discriminate.
    + intros [(a & b & Ha & _) | (_ & d & Hd & Hne & Hr & ->)];
        [rewrite Hrun in Ha; discriminate |].
      rewrite (get_weather_found w city d Hp Hd Hne), Hr. reflexivity.
  - split.
    + intros Hr. left. unfold get_weather, mbind, Py_bind, print in Hr.
      destruct (unencodable_run w (tool_log_line (lit "get_weather") city) 0)
        as [[a b] |] eqn:Hrun.
      * cbn [fst] in Hr. exists a, b. split; [reflexivity | congruence].
      * destruct (unencodable_run_Some w
                    (tool_log_line (lit "get_weather") city) 0)
          as (a & b & E);
          [rewrite printable_log_line by reflexivity; exact Hp |].
        rewrite E in Hrun. discriminate.
    + intros [(a & b & Ha & ->) | (? & _)]; [| discriminate].
      unfold get_weather, mbind, Py_bind, print. rewrite Ha. reflexivity.
Qed.

(** X3. When standard output can encode the input, a record without a
    ["timezone"] field, or without a ["display_name"] field once the zone
    has resolved and the clock has been read, makes [get_current_time]
    return a dict with status ["error"] whose [error_message] ends in the
    quoted name of the missing field. *)
Theorem get_current_time_missing_field (w : World) (city : str)
    (d : gmap str str) :
  printable w city = true →
  city_table w !! normalize city = Some d →
  d ≠ ∅ →
  (d !! lit "timezone" = None →
   returns_error (get_current_time city w).1
     (lit "Could not retrieve time for '" ++ city
        ++ lit "'. Reason: 'timezone'"))
  ∧ (∀ name tz now,
       d !! lit "timezone" = Some name → resolve_zone w name = Returns tz →
       clock w tz = Returns now → d !! lit "display_name" = None →
       returns_error (get_current_time city w).1
         (lit "Could not retrieve time for '" ++ city
            ++ lit "'. Reason: 'display_name'")).
Proof.
  intros Hp Hd Hne. rewrite (get_current_time_found w city d Hp Hd Hne). split.
  - intros ->. apply returns_error_intro.
  - intros name tz now -> -> -> ->. apply returns_error_intro.
Qed.

(** X4. When standard output can encode the input, a key that maps to an
    empty record counts as absent: both functions return a dict with status
    ["error"] whose [error_message] is their lookup-miss sentence. *)
Theorem empty_record_is_a_miss (w : World) (city : str) :
  printable w city = true →
  city_table w !! normalize city = Some ∅ →
  returns_error (get_weather city w).1
    (lit "Sorry, I don't have weather information for '" ++ city ++ lit "'.")
  ∧ returns_error (get_current_time city w).1
      (lit "Sorry, I don't have timezone information for '" ++ city
         ++ lit "'.").
Proof.
  intros Hp Hd.
  assert (Htr : truthy (city_table w !! normalize city) = false).
  { rewrite Hd. cbn [truthy]. rewrite bool_decide_eq_true_2 by reflexivity.
    reflexivity. }
  rewrite (get_weather_falsy w city Hp Htr),
    (get_current_time_falsy w city Hp Htr).
  split; apply returns_error_intro.
Qed.



Lemma cache_find_head (name : str) (tz : ZoneInfo)
    (rest : list (str * ZoneInfo)) :
  cache_find name ((name, tz) :: rest) = Some tz.
Proof. cbn [cache_find]. rewrite bool_decide_eq_true_2 by reflexivity. reflexivity. Qed.

(** A call that got as far as resolving the zone leaves it cached. *)
Lemma get_current_time_caches (w : World) (city : str) (d : gmap str str)
    (name : str) (tz : ZoneInfo) :
  printable w city = true →
  city_table w !! normalize city = Some d → d ≠ ∅ →
  d !! lit "timezone" = Some name →
  resolve_zone w name = Returns tz →
  cache_find name (zone_cache (get_current_time city w).2) = Some tz.
Proof.
  intros Hp Hd Hne Hn Hz. unfold get_current_time, mbind, Py_bind.
  rewrite print_printable by (rewrite printable_log_line by reflexivity; exact Hp).
  unfold CITY_DATA_get. cbn [city_table set_stdout].
  rewrite Hd, (truthy_Some d Hne). cbn [negb].
  unfold try_except, getitem, ZoneInfo_new, datetime_now. cbn [field_name].
  rewrite Hn. unfold resolve_zone in Hz.
  cbn [mret Py_ret zone_cache tzdb clock set_zone_cache set_stdout].
  destruct (cache_find name (zone_cache w)) as [tz0 |].
  - injection Hz as ->. cbn [clock set_zone_cache set_stdout].
    destruct (clock w tz) as [now | text];
      [destruct (d !! lit "display_name") |]; apply cache_find_head.
  - rewrite Hz. cbn [clock set_zone_cache set_stdout take zone_cache_size].
    destruct (clock w tz) as [now | text];
      [destruct (d !! lit "display_name") |]; apply cache_find_head.
Qed.

(** X6. The calls are linked through the cache of [ZoneInfo]: once
    [get_current_time] has returned a success for an input, the call made
    next with any input of the same normalized form that standard output can
    encode succeeds as well whenever the clock can be read, whatever has
    become of the timezone database in between. *)
Theorem cached_zone_outlives_database (w : World) (city city' report : str)
    (tz' : str → outcome ZoneInfo) (ck' : ZoneInfo → outcome datetime) :
  returns_success (get_current_time city w).1 report →
  normalize city' = normalize city →
  printable w city' = true →
  (∀ z, ∃ now, ck' z = Returns now) →
  ∃ report',
    returns_success
      (get_current_time city'
         (with_outside (get_current_time city w).2 tz' ck')).1 report'.
Proof.
  intros Hs Hnorm Hp' Hck.
  assert (Hp : printable w city = true).
  { destruct (printable w city) eqn:Hp; [reflexivity |].
    destruct (get_current_time_unprintable w city Hp) as (a & b & E).
    rewrite E in Hs. destruct Hs as (d & [=] & _). }
  destruct (truthy (city_table w !! normalize city)) eqn:Htr;
    [| rewrite (get_current_time_falsy w city Hp Htr) in Hs;
       destruct (returns_success_not_error _ _ _ Hs (returns_error_intro _))].
  apply truthy_true in Htr as (d & Hd & Hne).
  pose proof Hs as Hs0.
  rewrite (get_current_time_found w city d Hp Hd Hne) in Hs.
  destruct (d !! lit "timezone") as [name |] eqn:Hn;
    [| destruct (returns_success_not_error _ _ _ Hs (returns_error_intro _))].
  destruct (resolve_zone w name) as [tz | text] eqn:Hz;
    [| destruct (returns_success_not_error _ _ _ Hs (returns_error_intro _))].
  destruct (clock w tz) as [now | text];
    [| destruct (returns_success_not_error _ _ _ Hs (returns_error_intro _))].
  destruct (d !! lit "display_name") as [display |] eqn:Hdn;
    [| destruct (returns_success_not_error _ _ _ Hs (returns_error_intro _))].
  pose proof (get_current_time_caches w city d name tz Hp Hd Hne Hn Hz) as Hc.
  set (w1 := (get_current_time city w).2) in *.
  assert (Ht1 : city_table w1 = city_table w)
    by (apply (keeps_get_current_time city_table); reflexivity).
  assert (Hc1 : stdout_codec w1 = stdout_codec w)
    by (apply (keeps_get_current_time stdout_codec); reflexivity).
  destruct (Hck tz) as [now' Hnow'].
  exists (time_report display now').
  rewrite (get_current_time_found (with_outside w1 tz' ck') city' d).
  - rewrite Hn. unfold resolve_zone. cbn [with_outside zone_cache clock].
    rewrite Hc, Hnow', Hdn. apply returns_success_intro.
  - rewrite (printable_codec _ w) by exact Hc1. exact Hp'.
  - cbn [with_outside city_table]. rewrite Ht1, Hnorm. exact Hd.
  - exact Hne.
Qed.

(** ** Further properties: the normalized key *)

(** X7. The key that both functions look up never contains a space,
    whatever the input and whatever the lower-casing of non-ASCII text. *)
Theorem normalize_no_space (city : str) : SPACE ∉ normalize city.
Proof.
  unfold normalize. rewrite elem_of_remove_spaces. intros [_ H]. apply H.
  reflexivity.
Qed.

(** X8. For an ASCII input the key is the input with [A]-[Z] moved to
    [a]-[z] and every space dropped; it is ASCII, has no capital letter and
    no space, and normalizing it again gives the same key. *)
Theorem normalize_ascii_idempotent (city : str) :
  Forall (λ c, is_ascii c = true) city →
  normalize city = remove_spaces (ascii_lower <$> city)
  ∧ Forall (λ c, is_ascii c = true ∧ ¬ is_ascii_upper c ∧ c ≠ SPACE)
      (normalize city)
  ∧ normalize (normalize city) = normalize city.
Proof.
  intros Hs. pose proof (normalize_ascii_canonical city Hs) as Hc.
  split; [apply normalize_ascii, Hs |]. split; [exact Hc |].
  rewrite (normalize_ascii (normalize city))
    by (eapply Forall_impl; [exact Hc | intros c (? & _); assumption]).
  rewrite fmap_ascii_lower_id
    by (eapply Forall_impl; [exact Hc | intros c (_ & ? & _); assumption]).
  apply remove_spaces_id. intros Hin.
  rewrite Forall_forall in Hc. destruct (Hc _ Hin) as (_ & _ & Hne).
  apply Hne. reflexivity.
Qed.

(** X9. On ASCII text normalization goes through concatenation, so a space
    put anywhere inside, before or after the name does not change the key. *)
Theorem normalize_ascii_app (a b : str) :
  Forall (λ c, is_ascii c = true) a →
  Forall (λ c, is_ascii c = true) b →
  normalize (a ++ b) = normalize a ++ normalize b
  ∧ normalize (a ++ SPACE :: b) = normalize (a ++ b).
Proof.
  intros Ha Hb.
  assert (Hsp : Forall (λ c, is_ascii c = true) (SPACE :: b))
    by (apply Forall_cons; split; [reflexivity | exact Hb]).
  rewrite !normalize_ascii by (try apply Forall_app; auto).
  rewrite !fmap_app, !remove_spaces_app. split; reflexivity.
Qed.

(** X10. The table agrees with the normalization: every key is its own
    normal form, and it is the normal form of the display name of its
    record, so the name a time report shows is itself an input that hits. *)
Theorem CITY_DATA_keys_normalized (k : str) (d : gmap str str) :
  CITY_DATA !! k = Some d →
  normalize k = k
  ∧ ∃ display, d !! lit "display_name" = Some display
               ∧ normalize display = k.
Proof.
  intros Hd. apply CITY_DATA_lookup_Some in Hd.
  destruct Hd as [[-> ->] | [[-> ->] | [-> ->]]].
  - split; [vm_compute; reflexivity |].
    exists (lit "New York"). split; vm_compute; reflexivity.
  - split; [vm_compute; reflexivity |].
    exists (lit "London"). split; vm_compute; reflexivity.
  - split; [vm_compute; reflexivity |].
    exists (lit "Tokyo"). split; vm_compute; reflexivity.
Qed.

(** ** Further properties: the rendered time and the messages *)

(** X11. For a time of day, ['%H:%M'] gives five characters: two decimal
    digits, a colon, two decimal digits; the digits read back as the hour
    and the minute, so two different times of day never render alike. *)
Theorem strftime_HM_reads_back (t : datetime) :
  valid_time t →
  (∃ a b c d,
     strftime_HM t = [48 + a; 48 + b; 58; 48 + c; 48 + d]
     ∧ a < 10 ∧ b < 10 ∧ c < 10 ∧ d < 10
     ∧ hour t = 10 * a + b ∧ minute t = 10 * c + d)
  ∧ ∀ t', valid_time t' → strftime_HM t' = strftime_HM t → t' = t.
Proof.
  intros [Hh Hm]. split.
  - exists (hour t / 10), (hour t mod 10), (minute t / 10), (minute t mod 10).
    destruct (two_digits_decode (hour t)) as (? & ? & ?); [lia |].
    destruct (two_digits_decode (minute t)) as (? & ? & ?); [lia |].
    split; [reflexivity | auto 10].
  - intros t' [Hh' Hm'] E. unfold strftime_HM in E.
    assert (E1 : two_digits (hour t') = two_digits (hour t))
      by (unfold two_digits in *; cbn in E; congruence).
    assert (E2 : two_digits (minute t') = two_digits (minute t))
      by (unfold two_digits in *; cbn in E; congruence).
    apply two_digits_inj in E1; [| lia | lia].
    apply two_digits_inj in E2; [| lia | lia].
    destruct t, t'; cbn in *; congruence.
Qed.

(** X12. The error message is enough to tell the errors apart: a miss
    message of either tool determines the input it was built from, the two
    tools' miss messages never coincide, and the message of a timezone or
    clock failure is never a miss message. *)
Theorem error_messages_tell_apart (c1 c2 : str) (e : exn) :
  (weather_miss_message c1 = weather_miss_message c2 → c1 = c2)
  ∧ (timezone_miss_message c1 = timezone_miss_message c2 → c1 = c2)
  ∧ weather_miss_message c1 ≠ timezone_miss_message c2
  ∧ time_failure_message c1 e ≠ weather_miss_message c2
  ∧ time_failure_message c1 e ≠ timezone_miss_message c2.
Proof.
  unfold weather_miss_message, timezone_miss_message, time_failure_message.
  repeat split.
  - intros E. apply app_inv_head in E. apply app_inv_tail in E. exact E.
  - intros E. apply app_inv_head in E. apply app_inv_tail in E. exact E.
  - intros E. cbn in E. discriminate.
  - intros E. cbn in E. discriminate.
  - intros E. cbn in E. discriminate.
Qed.

(** ** Further properties: the start-up check *)

(** X13. The import stops with [sys.exit] exactly when the variable
    [Maps_PLATFORM_API_KEY] is unset or set to the empty string, and the
    exit message is always the same fixed text. *)
Theorem module_startup_exits_iff (e : environ) :
  ((∃ message, module_startup e = SystemExit message)
   ↔ e !! lit "Maps_PLATFORM_API_KEY" = None
     ∨ e !! lit "Maps_PLATFORM_API_KEY" = Some [])
  ∧ ∀ message, module_startup e = SystemExit message →
      message = lit "Error: Environment variable 'Maps_PLATFORM_API_KEY' is not set.".
Proof.
  unfold module_startup.
  destruct (e !! lit "Maps_PLATFORM_API_KEY") as [key |] eqn:Hk.
  - cbn [str_truthy]. destruct (decide (key = [])) as [-> | Hne].
    + rewrite bool_decide_eq_true_2 by reflexivity. cbn [negb]. split.
      * split; [auto | intros _; eexists; reflexivity].
      * intros message [= <-]. reflexivity.
    + rewrite bool_decide_eq_false_2 by exact Hne. cbn [negb]. split.
      * split; [intros [? ?]; discriminate |].
        intros [? | [= ?]]; [discriminate | contradiction].
      * intros message ?. discriminate.
  - split.
    + split; [auto | intros _; eexists; reflexivity].
    + intros message [= <-]. reflexivity.
Qed.

(** ** Further properties: what cannot hit *)



End Resolver.

(** ** The properties at concrete inputs *)

Example normalize_kelvin_tokyo :
  normalize lower_nonascii_sample kelvin_tokyo = tokyo_key.
Proof. vm_compute. reflexivity. Qed.
















Lemma all_space_city_errors_witness :
  lit "   " ≠ []
  ∧ Forall (λ c, c = SPACE) (lit "   ")
  ∧ normalize lower_nonascii_sample (lit "   ") = []
  ∧ returns_error
      (get_weather lower_nonascii_sample (lit "   ")
         (initial_world ascii_codec [] sample_tzdb sample_clock)).1
      (lit "Sorry, I don't have weather information for '   '.")
  ∧ returns_error
      (get_current_time lower_nonascii_sample (lit "   ")
         (initial_world ascii_codec [] sample_tzdb sample_clock)).1
      (lit "Sorry, I don't have timezone information for '   '.").
Proof.
  assert (Hne : lit "   " ≠ []) by discriminate.
  assert (Hs : Forall (λ c, c = SPACE) (lit "   "))
    by (repeat constructor).
  split; [exact Hne |]. split; [exact Hs |].
  destruct (all_space_city_errors lower_nonascii_sample
              (initial_world ascii_codec [] sample_tzdb sample_clock)
              (lit "   ") eq_refl Hne Hs) as (Hn & _ & Hw & _ & Ht & _).
  split; [exact Hn |]. split; [exact Hw | exact Ht].
Defined.

Lemma get_current_time_raises_only_in_print_witness :
  (∃ d, (get_current_time lower_nonascii_sample (lit "Paris") sparse_world).1
        = Ok d
        ∧ (is_success_result d ∨ is_error_result d))
  ∧ ∃ start end_,
      (get_current_time lower_nonascii_sample lone_surrogate sparse_world).1
      = Raise (UnicodeEncodeError (lit "utf-8")
                 (tool_log_line (lit "get_current_time") lone_surrogate)
                 start end_ (lit "surrogates not allowed")).
Proof.
  split.
  - apply (proj1 (get_current_time_raises_only_in_print
                    lower_nonascii_sample sparse_world (lit "Paris"))).
    reflexivity.
  - apply (proj2 (get_current_time_raises_only_in_print
                    lower_nonascii_sample sparse_world lone_surrogate)).
    reflexivity.
Defined.

Lemma get_weather_raises_iff_witness :
  (get_weather lower_nonascii_sample (lit "Paris") sparse_world).1
  = Raise (KeyError weather_report).
Proof.
  apply (proj2 (get_weather_raises_iff lower_nonascii_sample sparse_world
                  (lit "Paris") (KeyError weather_report))).
  right. split; [reflexivity |].
  exists (dict_display [ (lit "display_name", lit "Paris") ]).
  split; [vm_compute; reflexivity |].
  split; [| split; [vm_compute; reflexivity | reflexivity]].
  intros E. apply (f_equal (λ m, m !! lit "display_name")) in E.
  vm_compute in E. discriminate.
Defined.

Lemma get_current_time_missing_field_witness :
  returns_error
    (get_current_time lower_nonascii_sample (lit "Paris") sparse_world).1
    (lit "Could not retrieve time for 'Paris'. Reason: 'timezone'")
  ∧ returns_error
      (get_current_time lower_nonascii_sample (lit "ROME") sparse_world).1
      (lit "Could not retrieve time for 'ROME'. Reason: 'display_name'").
Proof.
  split.
  - apply (get_current_time_missing_field lower_nonascii_sample sparse_world
             (lit "Paris") (dict_display [ (lit "display_name", lit "Paris") ])).
    + reflexivity.
    + vm_compute. reflexivity.
    + intros E. apply (f_equal (λ m, m !! lit "display_name")) in E.
      vm_compute in E. discriminate.
    + vm_compute. reflexivity.
  - refine (proj2 (get_current_time_missing_field lower_nonascii_sample
                     sparse_world (lit "ROME")
                     (dict_display [ (lit "timezone", lit "Europe/Rome") ])
                     _ _ _)
              (lit "Europe/Rome") {| zone_key := lit "Europe/Rome" |}
              {| hour := 23; minute := 59 |} _ _ _ _).
    + reflexivity.
    + vm_compute. reflexivity.
    + intros E. apply (f_equal (λ m, m !! lit "timezone")) in E.
      vm_compute in E. discriminate.
    + vm_compute. reflexivity.
    + reflexivity.
    + reflexivity.
    + vm_compute. reflexivity.
Defined.

Lemma empty_record_is_a_miss_witness :
  sparse_table !! normalize lower_nonascii_sample (lit "Oslo") = Some ∅
  ∧ returns_error
      (get_weather lower_nonascii_sample (lit "Oslo") sparse_world).1
      (lit "Sorry, I don't have weather information for 'Oslo'.")
  ∧ returns_error
      (get_current_time lower_nonascii_sample (lit "Oslo") sparse_world).1
      (lit "Sorry, I don't have timezone information for 'Oslo'.").
Proof.
  assert (H : sparse_table !! normalize lower_nonascii_sample (lit "Oslo")
              = Some ∅) by (vm_compute; reflexivity).
  split; [exact H |].
  apply (empty_record_is_a_miss lower_nonascii_sample sparse_world
           (lit "Oslo") eq_refl H).
Defined.

(** After a success for "Tokyo" the zone is cached: " tokyo" succeeds next
    although the database has lost every zone, while the same call made
    first fails. *)
Lemma cached_zone_outlives_database_witness :
  (∃ report',
     returns_success
       (get_current_time lower_nonascii_sample (lit " tokyo")
          (with_outside
             (get_current_time lower_nonascii_sample (lit "Tokyo")
                (initial_world utf_8_codec [] sample_tzdb sample_clock)).2
             empty_tzdb sample_clock)).1 report')
  ∧ returns_error
      (get_current_time lower_nonascii_sample (lit " tokyo")
         (initial_world utf_8_codec [] empty_tzdb sample_clock)).1
      (lit "Could not retrieve time for ' tokyo'. Reason: 'No time zone found with key Asia/Tokyo'").
Proof.
  split.
  - apply (cached_zone_outlives_database lower_nonascii_sample
             (initial_world utf_8_codec [] sample_tzdb sample_clock)
             (lit "Tokyo") (lit " tokyo")
             (lit "The current time in Tokyo is 09:05.")).
    + assert (E : (get_current_time lower_nonascii_sample (lit "Tokyo")
                     (initial_world utf_8_codec [] sample_tzdb sample_clock)).1
                  = Ok (success (lit "The current time in Tokyo is 09:05.")))
        by (vm_compute; reflexivity).
      rewrite E. apply returns_success_intro.
    + vm_compute. reflexivity.
    + reflexivity.
    + intros z. eexists. reflexivity.
  - assert (E : (get_current_time lower_nonascii_sample (lit " tokyo")
                   (initial_world utf_8_codec [] empty_tzdb sample_clock)).1
                = Ok (error (lit "Could not retrieve time for ' tokyo'. Reason: 'No time zone found with key Asia/Tokyo'")))
      by (vm_compute; reflexivity).
    rewrite E. apply returns_error_intro.
Defined.

Lemma normalize_ascii_idempotent_witness :
  normalize lower_nonascii_sample (lit " New York ") = lit "newyork"
  ∧ normalize lower_nonascii_sample
      (normalize lower_nonascii_sample (lit " New York "))
    = normalize lower_nonascii_sample (lit " New York ").
Proof.
  destruct (normalize_ascii_idempotent lower_nonascii_sample
              (lit " New York ")) as (H1 & _ & H3).
  - repeat constructor.
  - split; [rewrite H1; vm_compute; reflexivity | exact H3].
Defined.

Lemma normalize_ascii_app_witness :
  normalize lower_nonascii_sample (lit "New" ++ lit "York")
  = normalize lower_nonascii_sample (lit "New")
    ++ normalize lower_nonascii_sample (lit "York")
  ∧ normalize lower_nonascii_sample (lit "New" ++ SPACE :: lit "York")
    = normalize lower_nonascii_sample (lit "New" ++ lit "York").
Proof.
  apply (normalize_ascii_app lower_nonascii_sample (lit "New") (lit "York"));
    repeat constructor.
Defined.

Lemma CITY_DATA_keys_normalized_witness :
  normalize lower_nonascii_sample london_key = london_key
  ∧ ∃ display,
      dict_display london_fields !! lit "display_name" = Some display
      ∧ normalize lower_nonascii_sample display = london_key.
Proof.
  apply (CITY_DATA_keys_normalized lower_nonascii_sample london_key
           (dict_display london_fields)).
  vm_compute. reflexivity.
Defined.

Lemma strftime_HM_reads_back_witness :
  strftime_HM {| hour := 9; minute := 5 |} = lit "09:05"
  ∧ ∀ t', valid_time t' →
      strftime_HM t' = strftime_HM {| hour := 9; minute := 5 |} →
      t' = {| hour := 9; minute := 5 |}.
Proof.
  split; [reflexivity |].
  apply (strftime_HM_reads_back {| hour := 9; minute := 5 |}).
  split; reflexivity.
Defined.

